(** * Resilient fetch: the Open Library integration of [learn/05_api_integration.py]

    A shallow embedding of the lookup functions of the script
    (the synchronous and asynchronous single fetchers, the batch
    function built on [asyncio.gather], the [OpenLibraryAPI] wrapper with
    its record parser, and the retry loop), followed by the properties
    the specification states about them.

    Python values are embedded as an inductive type, exceptions as
    a second one, and a call that may raise returns a [result].  The
    network is a parameter: a function from the request URL to what the
    transport does with it. *)

From Stdlib Require Import String Ascii List Sorted ZArith QArith Qabs Bool Lia PrimFloat.
Import ListNotations.
Set Warnings "-register-all".
Local Open Scope string_scope.
Local Open Scope list_scope.

(** ** Python values *)

(** What [json.loads] can produce, which is also all the script ever
    builds: [None], booleans, integers, floats, strings, lists and
    dictionaries with string keys.  A dictionary is the list of its
    items in insertion order; its keys are pairwise distinct, and
    [dict_get] reads the first item with the key. *)
Inductive value : Type :=
| VNone
| VBool (b : bool)
| VInt (n : Z)
| VFloat (f : float)
| VStr (s : string)
| VList (xs : list value)
| VDict (items : list (string * value)).

Definition dict := list (string * value).

(** [bool(v)]: the truth value Python gives to [v] in [if v:]. *)
Definition truthy (v : value) : bool :=
  match v with
  | VNone => false
  | VBool b => b
  | VInt n => negb (n =? 0)%Z
  | VFloat f => negb (PrimFloat.eqb f PrimFloat.zero)
  | VStr s => negb (String.eqb s "")
  | VList xs => match xs with [] => false | _ :: _ => true end
  | VDict items => match items with [] => false | _ :: _ => true end
  end.

Fixpoint dict_get (d : dict) (k : string) : option value :=
  match d with
  | [] => None
  | (k', v) :: rest => if String.eqb k' k then Some v else dict_get rest k
  end.

(** [d.get(k, dflt)] on a dictionary. *)
Definition dict_get_default (d : dict) (k : string) (dflt : value) : value :=
  match dict_get d k with
  | Some v => v
  | None => dflt
  end.

(** ** Exceptions and results *)

(** The exception classes that occur, all of them subclasses of
    [Exception].  [TimeoutException] stands for [httpx.TimeoutException]
    and its subclasses, [ConnectError] for the transport failures of
    httpx that are not timeouts.  An [exn] is always an instance of
    [Exception]: [KeyboardInterrupt] and [SystemExit] end the whole
    run, and the cancellation of a task, which no answer of the
    network brings about, is not among the things a client does
    (what [gather] hands back for a cancelled task is modelled
    apart, with [collect_any]). *)
Inductive exn : Type :=
| TimeoutException
| ConnectError
| HTTPStatusError (status : Z)
| JSONDecodeError
| AttributeError
| TypeError
| KeyError
| IndexError
| RuntimeError.

Inductive result (A : Type) : Type :=
| Ret (a : A)
| Raise (e : exn).
Arguments Ret {A} a.
Arguments Raise {A} e.

Definition bind {A B : Type} (r : result A) (k : A -> result B) : result B :=
  match r with
  | Ret a => k a
  | Raise e => Raise e
  end.

Notation "x <- r ;; k" := (bind r (fun x => k))
  (at level 61, r at next level, right associativity).

(** [try: ... except Exception: return None] *)
Definition except_return_None (r : result value) : value :=
  match r with
  | Ret v => v
  | Raise _ => VNone
  end.

(** ** Operations of the script on decoded data *)

(** [obj.get(k, dflt)]: only a dictionary has the method. *)
Definition py_get (obj : value) (k : string) (dflt : value) : result value :=
  match obj with
  | VDict d => Ret (dict_get_default d k dflt)
  | _ => Raise AttributeError
  end.

(** [v[0].get('name', dflt)].  A non-empty list gives its first
    element; a string gives a one-character string, which has no [get];
    a dictionary decoded from JSON has no integer key; the other values
    are not subscriptable. *)
Definition first_name (v : value) (dflt : value) : result value :=
  match v with
  | VList (x :: _) => py_get x "name" dflt
  | VList [] => Raise IndexError
  | VStr EmptyString => Raise IndexError
  | VStr (String _ _) => Raise AttributeError
  | VDict _ => Raise KeyError
  | VNone | VBool _ | VInt _ | VFloat _ => Raise TypeError
  end.

(** [k in data] *)
Definition py_in (k : string) (data : value) : result bool :=
  match data with
  | VDict d => Ret (match dict_get d k with Some _ => true | None => false end)
  | VList xs =>
      Ret (existsb (fun x => match x with VStr s => String.eqb s k | _ => false end) xs)
  | VStr s => Ret (match String.index 0 k s with Some _ => true | None => false end)
  | VNone | VBool _ | VInt _ | VFloat _ => Raise TypeError
  end.

(** [data[k]] for a string [k] *)
Definition py_getitem (data : value) (k : string) : result value :=
  match data with
  | VDict d => match dict_get d k with Some v => Ret v | None => Raise KeyError end
  | _ => Raise TypeError
  end.

Definition unknown_title : value := VStr "Bilinmeyen Başlık".
Definition unknown_author : value := VStr "Bilinmeyen Yazar".
Definition unknown_publisher : value := VStr "Bilinmeyen Yayınevi".
Definition unknown_date : value := VStr "Bilinmeyen Tarih".
Definition unknown_pages : value := VStr "Bilinmeyen Sayfa".

(** [authors[0].get('name', 'Bilinmeyen Yazar') if authors else 'Bilinmeyen Yazar'] *)
Definition author_of (authors : value) : result value :=
  if truthy authors then first_name authors unknown_author else Ret unknown_author.

(** ** The record parser, [OpenLibraryAPI._parse_book_data] *)

Definition _parse_book_data (book_data : value) (isbn : string) : result value :=
  title <- py_get book_data "title" unknown_title ;;
  authors <- py_get book_data "authors" (VList []) ;;
  author <- author_of authors ;;
  publishers <- py_get book_data "publishers" VNone ;;
  publisher <-
    (if truthy publishers
     then (p <- py_get book_data "publishers" (VList [VDict []]) ;;
           first_name p unknown_publisher)
     else Ret unknown_publisher) ;;
  publish_date <- py_get book_data "publish_date" unknown_date ;;
  number_of_pages <- py_get book_data "number_of_pages" unknown_pages ;;
  Ret (VDict [("title", title); ("author", author); ("isbn", VStr isbn);
              ("publisher", publisher); ("publish_date", publish_date);
              ("number_of_pages", number_of_pages); ("raw_data", book_data)]).

(** ** The transport *)

(** What the script reads of an HTTP response: the status code, and the
    decoded body, which [response.json()] computes on demand and which
    raises when the body is not JSON. *)
Record response : Type := mkResponse {
  status_code : Z;
  json : result value
}.

(** A request either raises (timeout, connection failure) or is
    answered. *)
Definition transport := string -> result response.

(** An [httpx.AsyncClient] together with what the environment does to
    it: creating it may raise, a request goes through [client_get], and
    closing it may raise. *)
Record client : Type := mkClient {
  client_open : option exn;
  client_get : transport;
  client_close : option exn
}.

(** [async with ... as c: body]: an exception raised on leaving the
    block replaces whatever the body did, a [return] included. *)
Definition with_client {A : Type} (c : client) (body : transport -> result A)
  : result A :=
  match client_open c with
  | Some e => Raise e
  | None =>
      let r := body (client_get c) in
      match client_close c with
      | Some e => Raise e
      | None => r
      end
  end.

Definition default_base_url : string := "https://openlibrary.org".

Definition books_url (base_url isbn : string) : string :=
  base_url ++ "/api/books?bibkeys=ISBN:" ++ isbn ++ "&format=json&jscmd=data".

Definition isbn_key (isbn : string) : string := "ISBN:" ++ isbn.

(** The body shared by [fetch_book_info_sync] and
    [fetch_book_info_async], from the request to the [return]. *)
Definition lookup_200 (get : transport) (isbn : string) : result value :=
  response <- get (books_url default_base_url isbn) ;;
  if (status_code response =? 200)%Z then
    data <- json response ;;
    found <- py_in (isbn_key isbn) data ;;
    if (found : bool) then
      book_data <- py_getitem data (isbn_key isbn) ;;
      title <- py_get book_data "title" unknown_title ;;
      authors <- py_get book_data "authors" (VList []) ;;
      author <- author_of authors ;;
      Ret (VDict [("title", title); ("author", author); ("isbn", VStr isbn);
                  ("raw_data", book_data)])
    else Ret VNone
  else Ret VNone.

(** ** The synchronous single fetcher, [fetch_book_info_sync] *)

Definition is_timeout (e : exn) : bool :=
  match e with
  | TimeoutException => true
  | _ => false
  end.

Section Sync.
(** The attributes of the imported [httpx] module: an [except
    httpx.X] clause looks [X] up when an exception reaches it, and
    the lookup raises [AttributeError] when the module has no such
    name. *)
Variable httpx_has : string -> bool.
Variable get : transport.

(** The handlers are tried in order.  Past the second clause every
    handler returns [None] and the last one catches every
    exception. *)
Definition fetch_book_info_sync (isbn : string) : result value :=
  match lookup_200 get isbn with
  | Ret v => Ret v
  | Raise e =>
      if httpx_has "TimeoutException" then
        if is_timeout e then Ret VNone
        else if httpx_has "RequestException" then Ret VNone
        else Raise AttributeError
      else Raise AttributeError
  end.
End Sync.

(** [httpx] is an external package.  These are the exception classes
    it exports: the base class of request failures is [RequestError];
    [RequestException] is the name the [requests] package uses. *)
Definition httpx_exceptions : list string :=
  ["HTTPError"; "RequestError"; "TransportError"; "TimeoutException";
   "ConnectTimeout"; "ReadTimeout"; "WriteTimeout"; "PoolTimeout";
   "NetworkError"; "ConnectError"; "ReadError"; "WriteError"; "CloseError";
   "ProtocolError"; "LocalProtocolError"; "RemoteProtocolError";
   "ProxyError"; "UnsupportedProtocol"; "DecodingError"; "TooManyRedirects";
   "HTTPStatusError"; "InvalidURL"; "CookieConflict"; "StreamError";
   "StreamConsumed"; "StreamClosed"; "ResponseNotRead"; "RequestNotRead"].

Definition httpx_module (name : string) : bool :=
  existsb (String.eqb name) httpx_exceptions.

(** ** The asynchronous single fetcher, [fetch_book_info_async] *)

Definition fetch_book_info_async (c : client) (isbn : string) : value :=
  except_return_None (with_client c (fun get => lookup_200 get isbn)).

(** ** The batch function, [fetch_multiple_books_async] *)

(** The loop over [enumerate(results)], for results that are values
    returned ([Ret]) or instances of [Exception] ([Raise]): such an
    exception is reported and skipped, a true result is appended,
    anything else is skipped. *)
Fixpoint collect (results : list (result value)) (books : list value)
  : list value :=
  match results with
  | [] => books
  | Raise _ :: rest => collect rest books
  | Ret v :: rest =>
      if truthy v then collect rest (books ++ [v]) else collect rest books
  end.

Section Gather.
(** What the coroutine started for a key ends with. *)
Variable coro : string -> result value.

(** [asyncio.gather] with [return_exceptions=True] yields the
    results in the order of the tasks, exceptions as values. *)
Definition gather (isbns : list string) : list (result value) :=
  map coro isbns.

Definition gather_books (isbns : list string) : list value :=
  collect (gather isbns) [].
End Gather.

(** [world isbn] is the client the coroutine for [isbn] gets; a key
    that occurs twice in the list is answered the same way both
    times. *)
Definition fetch_multiple_books_async (world : string -> client)
    (isbns : list string) : list value :=
  gather_books (fun isbn => Ret (fetch_book_info_async (world isbn) isbn)) isbns.

(** The same loop over everything [asyncio.gather] can hand back with
    [return_exceptions=True]: the value a coroutine returned, the
    exception it ended with when that is an instance of [Exception],
    or the [CancelledError] of a cancelled task, which is a
    [BaseException] only.  The test [isinstance(result, Exception)]
    lets the last one through to [elif result], where an exception
    object counts as true and is appended. *)
Inductive gathered : Type :=
| Returned (v : value)
| ExceptionObject (e : exn)
| CancelledErrorObject.

(** An entry of [books]: a value, or the [CancelledError] object. *)
Inductive entry : Type :=
| Entry (v : value)
| CancelledErrorEntry.

Fixpoint collect_any (results : list gathered) (books : list entry)
  : list entry :=
  match results with
  | [] => books
  | ExceptionObject _ :: rest => collect_any rest books
  | CancelledErrorObject :: rest =>
      collect_any rest (books ++ [CancelledErrorEntry])
  | Returned v :: rest =>
      if truthy v then collect_any rest (books ++ [Entry v])
      else collect_any rest books
  end.

Definition gather_books_any (coro : string -> gathered) (isbns : list string)
  : list entry :=
  collect_any (map coro isbns) [].

(** A result of the narrower loop among those of the wider one. *)
Definition as_gathered (r : result value) : gathered :=
  match r with
  | Ret v => Returned v
  | Raise e => ExceptionObject e
  end.

(** What an observer of the retry loop sees: a call of
    [get_book_by_isbn] during the attempt numbered [attempt], and a call
    of [asyncio.sleep]. *)
Inductive event : Type :=
| Fetch (attempt : nat)
| Sleep (delay : Q).

(** ** The wrapper class, [OpenLibraryAPI] *)

Section API.
(** [response.raise_for_status()] belongs to httpx: it raises
    [HTTPStatusError] on the status codes it takes for errors, which
    the library decides. *)
Variable is_error_status : Z -> bool.

Definition raise_for_status (r : response) : result unit :=
  if is_error_status (status_code r)
  then Raise (HTTPStatusError (status_code r))
  else Ret tt.

(** [get_book_by_isbn] never raises: its [try] ends with
    [except Exception: return None]. *)
Definition get_book_by_isbn (base_url : string) (session : transport)
    (isbn : string) : value :=
  except_return_None
    (response <- session (books_url base_url isbn) ;;
     _ <- raise_for_status response ;;
     data <- json response ;;
     found <- py_in (isbn_key isbn) data ;;
     if (found : bool) then
       book_data <- py_getitem data (isbn_key isbn) ;;
       _parse_book_data book_data isbn
     else Ret VNone).

(** ** The retry loop, [fetch_with_retry] *)

(** [world attempt] is the client the attempt numbered [attempt]
    gets from [OpenLibraryAPI()]. *)
Variable world : nat -> client.
Variable isbn : string.
Variable max_retries : Z.

(** The body of the [try]: the [async with] block around the lookup.
    [Ret result] is the value of [result] on leaving the block. *)
Definition attempt_once (attempt : nat) : result value * list event :=
  match client_open (world attempt) with
  | Some e => (Raise e, [])
  | None =>
      let result := get_book_by_isbn default_base_url
                      (client_get (world attempt)) isbn in
      match client_close (world attempt) with
      | Some e => (Raise e, [Fetch attempt])
      | None => (Ret result, [Fetch attempt])
      end
  end.

(** The [for] loop over the remaining values of [attempt], with the
    current [delay]; it ends with [return None] when the values run
    out.  The delay is the exact number the float stands for: [delay
    * 2] is what Python computes as long as the product stays within
    the range of a float, and differs from it once the float
    overflows. *)
Fixpoint retry_loop (attempts : list nat) (delay : Q) : value * list event :=
  match attempts with
  | [] => (VNone, [])
  | attempt :: rest =>
      let (r, evs) := attempt_once attempt in
      match r with
      | Ret result =>
          if truthy result then (result, evs)
          else let (v, evs') := retry_loop rest delay in (v, evs ++ evs')
      | Raise _ =>
          if (Z.of_nat attempt <? max_retries - 1)%Z
          then let (v, evs') := retry_loop rest (delay * 2)%Q in
               (v, evs ++ Sleep delay :: evs')
          else let (v, evs') := retry_loop rest delay in (v, evs ++ evs')
      end
  end.

(** [range(n)] *)
Definition range (n : Z) : list nat := seq 0 (Z.to_nat n).

Definition fetch_with_retry (delay : Q) : value * list event :=
  retry_loop (range max_retries) delay.
End API.

(** The sleeps among the events, and the number of lookups. *)
Definition sleeps (evs : list event) : list Q :=
  flat_map (fun ev => match ev with Sleep d => [d] | Fetch _ => [] end) evs.

Definition fetches (evs : list event) : list nat :=
  flat_map (fun ev => match ev with Fetch n => [n] | Sleep _ => [] end) evs.

(** [raise_for_status] as httpx has it today: every status outside
    200..299 raises. *)
Definition not_2xx (status : Z) : bool :=
  negb ((200 <=? status)%Z && (status <=? 299)%Z).

(** * Vocabulary of the statements *)

(** ** Shapes of results *)

Definition is_None (v : value) : bool :=
  match v with
  | VNone => true
  | _ => false
  end.

(** The dictionary the single fetchers build for [isbn]. *)
Definition book_info (title author : value) (isbn : string) (raw : value) : value :=
  VDict [("title", title); ("author", author); ("isbn", VStr isbn);
         ("raw_data", raw)].

(** [r['isbn']] of a returned record *)
Definition record_isbn (r : value) : option value :=
  match r with
  | VDict d => dict_get d "isbn"
  | _ => None
  end.

(** What one gathered result contributes to [books]. *)
Definition kept (r : result value) : list value :=
  match r with
  | Ret v => if truthy v then [v] else []
  | Raise _ => []
  end.

Definition missing_or_empty (d : dict) (k : string) : Prop :=
  dict_get d k = None \/ dict_get d k = Some (VList []).

(** A names field ([authors], [publishers]) as the parser can read it:
    missing, present with a false value (null, an empty list, string or
    mapping, zero), or a list that starts with a mapping. *)
Definition names_readable (field : option value) : bool :=
  match field with
  | None => true
  | Some v =>
      negb (truthy v)
      || match v with
         | VList (VDict _ :: _) => true
         | _ => false
         end
  end.

(** The name the specification asks for: the [name] of the first
    element of the list, and the default when the list is missing or
    empty or the element has no [name]. *)
Definition name_or (field : option value) (dflt : value) : value :=
  match field with
  | Some (VList (VDict first :: _)) =>
      match dict_get first "name" with
      | Some name => name
      | None => dflt
      end
  | _ => dflt
  end.

(** ** Outcomes of a lookup *)

(** The lookup of the client answers, without an error status and with
    a decodable body, and the key is not in the body: a confirmed
    absence. *)
Definition reports_absence (is_error_status : Z -> bool) (c : client)
    (isbn : string) : bool :=
  match client_open c, client_close c,
        client_get c (books_url default_base_url isbn) with
  | None, None, Ret resp =>
      negb (is_error_status (status_code resp))
      && match json resp with
         | Ret data =>
             match py_in (isbn_key isbn) data with
             | Ret false => true
             | _ => false
             end
         | Raise _ => false
         end
  | _, _, _ => false
  end.


(** Successive doublings of the delay. *)
Fixpoint backoff (delay : Q) (n : nat) : list Q :=
  match n with
  | O => []
  | S n' => delay :: backoff (delay * 2)%Q n'
  end.

(** An attempt that ends without a true result sends the loop on. *)
Definition no_result (is_error_status : Z -> bool) (world : nat -> client)
    (isbn : string) (n : nat) : Prop :=
  match fst (attempt_once is_error_status world isbn n) with
  | Ret v => truthy v = false
  | Raise _ => True
  end.

(** ** A small lookup service for the examples *)

(** A client that opens and closes without fault. *)
Definition plain_client (get : transport) : client := mkClient None get None.

(** The answer of the service for a key it has: status 200 and a body
    that maps the key to its fragment. *)
Definition served (fragment : value) (isbn : string) : response :=
  mkResponse 200 (Ret (VDict [(isbn_key isbn, fragment)])).

(** The answer for a key it does not have: status 200, empty mapping. *)
Definition absent : response := mkResponse 200 (Ret (VDict [])).

Definition dune : value :=
  VDict [("title", VStr "Dune"); ("authors", VList [VDict [("name", VStr "Frank Herbert")]])].

Definition k1 : string := "978-1593276034".
Definition k2 : string := "978-0134685991".
Definition k3 : string := "978-1118883665".

(** A service that has [k1] and [k3] and answers 500 for [k2]. *)
Definition k2_down (isbn : string) : client :=
  if String.eqb isbn k2
  then plain_client (fun _ => Ret (mkResponse 500 (Raise JSONDecodeError)))
  else plain_client (fun _ => Ret (served dune isbn)).

(** A service that has every key, behind a transport that raises an
    unexpected error for [k2]. *)
Definition k2_crashes (isbn : string) : client :=
  if String.eqb isbn k2
  then plain_client (fun _ => Raise RuntimeError)
  else plain_client (fun _ => Ret (served dune isbn)).

(** Three coroutines of which the one for [k2] is cancelled. *)
Definition k2_cancelled (isbn : string) : gathered :=
  if String.eqb isbn k2 then CancelledErrorObject
  else Returned (book_info (VStr "Dune") (VStr "Frank Herbert") isbn dune).

(** Three worlds for the retry loop: a service that is up and does not
    have the key, a service that cannot be reached, and one that
    cannot be reached twice and then serves the key. *)
Definition nowhere (attempt : nat) : client := plain_client (fun _ => Ret absent).


Definition third_time_lucky (attempt : nat) : client :=
  if (attempt <? 2)%nat
  then plain_client (fun _ => Raise ConnectError)
  else plain_client (fun _ => Ret (served dune k1)).

(** The record [_parse_book_data] builds from [dune] for [k1]. *)
Definition dune_record : value :=
  VDict [("title", VStr "Dune"); ("author", VStr "Frank Herbert");
         ("isbn", VStr k1); ("publisher", unknown_publisher);
         ("publish_date", unknown_date); ("number_of_pages", unknown_pages);
         ("raw_data", dune)].

(** ** Further vocabulary *)

(** [r[k]] of a returned record *)
Definition record_field (r : value) (k : string) : option value :=
  match r with
  | VDict d => dict_get d k
  | _ => None
  end.

(** The dictionary [_parse_book_data] builds. *)
Definition book_details (title author : value) (isbn : string)
    (publisher publish_date number_of_pages raw : value) : value :=
  VDict [("title", title); ("author", author); ("isbn", VStr isbn);
         ("publisher", publisher); ("publish_date", publish_date);
         ("number_of_pages", number_of_pages); ("raw_data", raw)].

(** The attempt numbered [n] opens and closes its client without an
    exception and its lookup finds the book. *)
Definition attempt_succeeds (is_error_status : Z -> bool)
    (world : nat -> client) (isbn : string) (n : nat) : bool :=
  match client_open (world n), client_close (world n) with
  | None, None =>
      truthy (get_book_by_isbn is_error_status default_base_url
                (client_get (world n)) isbn)
  | _, _ => false
  end.

(** A service that serves [k1], behind a client whose closing raises. *)
Definition close_fails (attempt : nat) : client :=
  mkClient None (fun _ => Ret (served dune k1)) (Some RuntimeError).

(** What one gathered object contributes to [books]. *)
Definition kept_any (g : gathered) : list entry :=
  match g with
  | Returned v => if truthy v then [Entry v] else []
  | ExceptionObject _ => []
  | CancelledErrorObject => [CancelledErrorEntry]
  end.

(** An exception is raised inside the fetch of the key: on opening
    the client, by the request, on decoding or reading the body, or on
    closing the client. *)
Definition fetch_raises (c : client) (isbn : string) : bool :=
  match with_client c (fun get => lookup_200 get isbn) with
  | Raise _ => true
  | Ret _ => false
  end.

(** The largest finite float, and the numbers within the range of
    the floats. *)
Definition float_max : Q := inject_Z (2 ^ 1024 - 2 ^ 971).

Definition in_float_range (q : Q) : Prop := (Qabs q <= float_max)%Q.

(** A service that has every key. *)
Definition all_served (isbn : string) : client :=
  plain_client (fun _ => Ret (served dune isbn)).

(** A transport on which every request times out. *)
Definition times_out : transport := fun _ => Raise TimeoutException.

(** * Properties *)

(** ** Shapes of the results of the single fetchers *)

Lemma lookup_200_shape (get : transport) (isbn : string) (v : value) :
  lookup_200 get isbn = Ret v ->
  v = VNone \/ exists title author raw, v = book_info title author isbn raw.
Proof.
  unfold lookup_200.
  destruct (get _) as [resp|e]; simpl; [|discriminate].
  destruct (status_code resp =? 200)%Z; [|intros [= <-]; now left].
  destruct (json resp) as [data|e]; simpl; [|discriminate].
  destruct (py_in _ data) as [[|]|e]; simpl; try discriminate.
  - destruct (py_getitem data _) as [bd|e]; simpl; [|discriminate].
    destruct (py_get bd "title" _) as [t|e]; simpl; [|discriminate].
    destruct (py_get bd "authors" _) as [au|e]; simpl; [|discriminate].
    destruct (author_of au) as [a|e]; simpl; [|discriminate].
    intros [= <-]. right. now exists t, a, bd.
  - intros [= <-]. now left.
Qed.

Lemma fetch_book_info_async_shape (c : client) (isbn : string) :
  fetch_book_info_async c isbn = VNone
  \/ exists title author raw,
       fetch_book_info_async c isbn = book_info title author isbn raw.
Proof.
  unfold fetch_book_info_async, with_client.
  destruct (client_open c); [now left|].
  destruct (client_close c); [now left|].
  destruct (lookup_200 (client_get c) isbn) as [v|e] eqn:E; [|now left].
  apply lookup_200_shape in E. exact E.
Qed.

Lemma fetch_book_info_async_truthy (c : client) (isbn : string) :
  truthy (fetch_book_info_async c isbn)
  = negb (is_None (fetch_book_info_async c isbn)).
Proof.
  destruct (fetch_book_info_async_shape c isbn) as [->|(t & a & r & ->)];
    reflexivity.
Qed.

(** ** The collecting loop *)

Lemma collect_flat_map (results : list (result value)) (books : list value) :
  collect results books = books ++ flat_map kept results.
Proof.
  revert books.
  induction results as [|r rest IH]; intros books; simpl.
  - now rewrite app_nil_r.
  - destruct r as [v|e]; simpl.
    + destruct (truthy v); simpl; rewrite IH; [now rewrite <- app_assoc|reflexivity].
    + apply IH.
Qed.

Lemma gather_books_flat_map (coro : string -> result value) (isbns : list string) :
  gather_books coro isbns = flat_map (fun k => kept (coro k)) isbns.
Proof.
  unfold gather_books, gather. rewrite collect_flat_map. simpl.
  induction isbns as [|k rest IH]; simpl; [reflexivity|now rewrite IH].
Qed.

Lemma gather_books_app (coro : string -> result value) (xs ys : list string) :
  gather_books coro (xs ++ ys) = gather_books coro xs ++ gather_books coro ys.
Proof.
  rewrite !gather_books_flat_map. apply flat_map_app.
Qed.

(** ** The batch function *)

(** C9.  The list returned by [fetch_multiple_books_async] is the list
    of the per-key results that are not [None], in the order of their
    keys; each is a record built for one of the input keys; the list
    is no longer than the input, and it is empty for the empty input. *)
Theorem fetch_multiple_books_async_successes
    (world : string -> client) (isbns : list string) :
  fetch_multiple_books_async world isbns
    = filter (fun v => negb (is_None v))
        (map (fun k => fetch_book_info_async (world k) k) isbns)
  /\ Forall (fun r => exists k title author raw,
                In k isbns /\ r = book_info title author k raw)
       (fetch_multiple_books_async world isbns)
  /\ (length (fetch_multiple_books_async world isbns) <= length isbns)%nat
  /\ fetch_multiple_books_async world [] = [].
Proof.
  assert (E : fetch_multiple_books_async world isbns
              = filter (fun v => negb (is_None v))
                  (map (fun k => fetch_book_info_async (world k) k) isbns)).
  { unfold fetch_multiple_books_async. rewrite gather_books_flat_map.
    induction isbns as [|k rest IH]; [reflexivity|].
    cbn [flat_map map filter]. rewrite IH. unfold kept.
    rewrite fetch_book_info_async_truthy.
    now destruct (negb (is_None (fetch_book_info_async (world k) k))). }
  split; [exact E|]. split; [|split].
  - rewrite E. apply Forall_forall. intros r Hr.
    apply filter_In in Hr. destruct Hr as [Hin Hnn].
    apply in_map_iff in Hin. destruct Hin as (k & <- & Hk).
    destruct (fetch_book_info_async_shape (world k) k) as [H0|(t & a & raw & H1)].
    + rewrite H0 in Hnn. discriminate.
    + now exists k, t, a, raw.
  - rewrite E.
    rewrite <- (length_map (fun k => fetch_book_info_async (world k) k) isbns).
    apply filter_length_le.
  - reflexivity.
Qed.

(** C2, as the code has it.  The batch returns one record for each key
    whose fetch produced one, in input order, and nothing for the other
    keys: the keys of the returned records are the input keys with the
    ones that produced no record left out. *)
Theorem fetch_multiple_books_async_keys
    (world : string -> client) (isbns : list string) :
  map record_isbn (fetch_multiple_books_async world isbns)
  = map (fun k => Some (VStr k))
      (filter (fun k => negb (is_None (fetch_book_info_async (world k) k))) isbns).
Proof.
  unfold fetch_multiple_books_async. rewrite gather_books_flat_map.
  induction isbns as [|k rest IH]; [reflexivity|].
  cbn [flat_map filter]. rewrite map_app, IH. unfold kept.
  rewrite fetch_book_info_async_truthy.
  destruct (fetch_book_info_async_shape (world k) k) as [->|(t & a & raw & ->)];
    reflexivity.
Qed.

(** C2 fails as stated: for [[k1; k2; k3]] where the service answers
    500 for [k2], the batch returns two records, for [k1] and [k3],
    not three outcomes. *)
Lemma fetch_multiple_books_async_drops_failure :
  fetch_multiple_books_async k2_down [k1; k2; k3]
    = [book_info (VStr "Dune") (VStr "Frank Herbert") k1 dune;
       book_info (VStr "Dune") (VStr "Frank Herbert") k3 dune]
  /\ length (fetch_multiple_books_async k2_down [k1; k2; k3])
     <> length [k1; k2; k3].
Proof. split; [reflexivity|vm_compute; discriminate]. Qed.

(** C8, as the code has it.  An exception raised inside the fetch of
    one key is caught by the coroutine of that key, which ends with
    [None]: the batch is not stopped, the key contributes no entry to
    the returned list, and the entries of the other keys are those each
    of them gives when fetched on its own, in input order. *)
Theorem fetch_multiple_books_async_isolates_failure
    (world : string -> client) (before after : list string) (k : string) :
  fetch_raises (world k) k = true ->
  fetch_multiple_books_async world (before ++ k :: after)
    = fetch_multiple_books_async world before
      ++ fetch_multiple_books_async world after
  /\ fetch_multiple_books_async world (before ++ k :: after)
     = flat_map (fun k' => fetch_multiple_books_async world [k'])
         (before ++ after).
Proof.
  intros Hk. unfold fetch_multiple_books_async.
  assert (Hnone : kept (Ret (fetch_book_info_async (world k) k)) = []).
  { unfold fetch_raises in Hk. unfold fetch_book_info_async, kept.
    destruct (with_client (world k) _); [discriminate|reflexivity]. }
  assert (Hcut : gather_books
                   (fun isbn => Ret (fetch_book_info_async (world isbn) isbn))
                   (before ++ k :: after)
                 = gather_books
                     (fun isbn => Ret (fetch_book_info_async (world isbn) isbn))
                     before
                   ++ gather_books
                        (fun isbn => Ret (fetch_book_info_async (world isbn) isbn))
                        after).
  { rewrite gather_books_app.
    change (k :: after) with ([k] ++ after).
    rewrite gather_books_app.
    rewrite (gather_books_flat_map _ [k]). cbn [flat_map].
    now rewrite Hnone. }
  split; [exact Hcut|].
  rewrite Hcut, <- gather_books_app.
  rewrite gather_books_flat_map.
  apply flat_map_ext. intros k'.
  rewrite gather_books_flat_map. cbn [flat_map]. now rewrite app_nil_r.
Qed.

Lemma fetch_multiple_books_async_isolates_failure_witness :
  fetch_multiple_books_async k2_crashes ([k1] ++ k2 :: [k3])
    = fetch_multiple_books_async k2_crashes [k1]
      ++ fetch_multiple_books_async k2_crashes [k3]
  /\ fetch_multiple_books_async k2_crashes ([k1] ++ k2 :: [k3])
     = flat_map (fun k' => fetch_multiple_books_async k2_crashes [k'])
         ([k1] ++ [k3]).
Proof.
  apply (fetch_multiple_books_async_isolates_failure k2_crashes [k1] [k3] k2).
  reflexivity.
Defined.

(** C8 fails as stated: when the request for [k2] raises an unexpected
    error, no outcome of [k2] is kept; the returned list has two
    entries, for [k1] and [k3], and none of them is about [k2]. *)
Lemma fetch_multiple_books_async_no_failure_outcome :
  fetch_raises (k2_crashes k2) k2 = true
  /\ fetch_multiple_books_async k2_crashes [k1; k2; k3]
     = [book_info (VStr "Dune") (VStr "Frank Herbert") k1 dune;
        book_info (VStr "Dune") (VStr "Frank Herbert") k3 dune]
  /\ ~ In (Some (VStr k2))
         (map record_isbn (fetch_multiple_books_async k2_crashes [k1; k2; k3])).
Proof.
  split; [reflexivity|]. split; [reflexivity|].
  vm_compute. intros [H|[H|[]]]; discriminate H.
Qed.

(** ** The retry loop *)

Section RetryFacts.
Variable is_error_status : Z -> bool.
Variable world : nat -> client.
Variable isbn : string.
Variable max_retries : Z.

Local Abbreviation once := (attempt_once is_error_status world isbn).
Local Abbreviation loop := (retry_loop is_error_status world isbn max_retries).
Local Abbreviation idle := (no_result is_error_status world isbn).


Lemma attempt_once_absent (n : nat) :
  reports_absence is_error_status (world n) isbn = true ->
  once n = (Ret VNone, [Fetch n]).
Proof.
  unfold reports_absence, attempt_once, get_book_by_isbn, raise_for_status.
  destruct (client_open (world n)); [discriminate|].
  destruct (client_close (world n)); [discriminate|].
  destruct (client_get (world n) _) as [resp|e]; [|discriminate].
  simpl.
  destruct (is_error_status (status_code resp)); simpl; [discriminate|].
  destruct (json resp) as [data|e]; simpl; [|discriminate].
  destruct (py_in (isbn_key isbn) data) as [[|]|e]; simpl;
    try discriminate; reflexivity.
Qed.


Lemma retry_loop_absent (attempts : list nat) (delay : Q) :
  (forall n, reports_absence is_error_status (world n) isbn = true) ->
  loop attempts delay = (VNone, map Fetch attempts).
Proof.
  intros H. revert delay.
  induction attempts as [|a rest IH]; intros delay; [reflexivity|].
  cbn [retry_loop].
  rewrite (attempt_once_absent a (H a)). cbn [truthy].
  now rewrite IH.
Qed.

Lemma attempt_once_sleeps (n : nat) : sleeps (snd (once n)) = [].
Proof.
  unfold attempt_once.
  destruct (client_open (world n)); [reflexivity|].
  destruct (client_close (world n)); reflexivity.
Qed.

(** When every attempt leaves the [async with] block with an
    exception, the loop sleeps after each attempt but the last, and
    doubles the delay each time. *)
Lemma retry_loop_backoff (k a : nat) (delay : Q) :
  (forall n, exists e, fst (once n) = Raise e) ->
  (a + k = Z.to_nat max_retries)%nat ->
  sleeps (snd (loop (seq a k) delay)) = backoff delay (k - 1).
Proof.
  intros H. revert a delay.
  induction k as [|k IH]; intros a delay Hak; [reflexivity|].
  cbn [retry_loop seq].
  destruct (H a) as [e He]. pose proof (attempt_once_sleeps a) as Hs.
  destruct (once a) as [r evs]. simpl in He, Hs. subst r.
  destruct (Z.of_nat a <? max_retries - 1)%Z eqn:Hlt.
  - apply Z.ltb_lt in Hlt.
    specialize (IH (S a) (delay * 2)%Q ltac:(lia)).
    destruct (loop (seq (S a) k) (delay * 2)%Q) as [v evs'].
    simpl in IH |- *. unfold sleeps in *.
    rewrite flat_map_app, Hs. simpl. rewrite IH.
    destruct k as [|k']; [lia|]. simpl. now rewrite Nat.sub_0_r.
  - apply Z.ltb_ge in Hlt.
    assert (k = 0%nat) by lia. subst k. simpl.
    unfold sleeps in *. now rewrite flat_map_app, Hs.
Qed.
End RetryFacts.

(** C10.  With [max_retries = 0] the loop body never runs:
    [fetch_with_retry] returns [None], with no lookup and no sleep. *)
Theorem fetch_with_retry_zero_attempts
    (is_error_status : Z -> bool) (world : nat -> client) (isbn : string)
    (delay : Q) :
  fetch_with_retry is_error_status world isbn 0 delay = (VNone, []).
Proof. reflexivity. Qed.

(** C1, as the code has it.  When every lookup reports a confirmed
    absence, [fetch_with_retry] returns [None] after one lookup per
    value of [range(max_retries)], and never sleeps: an absence is
    tried again like any other empty result. *)
Theorem fetch_with_retry_absent
    (is_error_status : Z -> bool) (world : nat -> client) (isbn : string)
    (max_retries : Z) (delay : Q) :
  (forall n, reports_absence is_error_status (world n) isbn = true) ->
  fetch_with_retry is_error_status world isbn max_retries delay
  = (VNone, map Fetch (range max_retries)).
Proof.
  intros H. unfold fetch_with_retry. now apply retry_loop_absent.
Qed.

Lemma fetch_with_retry_absent_witness :
  (forall n, reports_absence not_2xx (nowhere n) "000-000-0000" = true)
  /\ fetch_with_retry not_2xx nowhere "000-000-0000" 2 1
     = (VNone, [Fetch 0; Fetch 1]).
Proof.
  split; [intros n; reflexivity|].
  apply (fetch_with_retry_absent not_2xx nowhere "000-000-0000" 2 1).
  intros n. reflexivity.
Defined.

(** C1 fails as stated: with [max_retries = 2] and a service that
    reports the key absent, the loop performs two lookups, not one. *)
Lemma fetch_with_retry_absent_two_lookups :
  reports_absence not_2xx (nowhere 0) "000-000-0000" = true
  /\ reports_absence not_2xx (nowhere 1) "000-000-0000" = true
  /\ fetches (snd (fetch_with_retry not_2xx nowhere "000-000-0000" 2 1))
     = [0%nat; 1%nat]
  /\ length (fetches (snd (fetch_with_retry not_2xx nowhere "000-000-0000" 2 1)))
     <> 1%nat.
Proof. repeat split; try reflexivity. vm_compute. discriminate. Qed.




(** C4, on the code.  With a service that cannot be reached on the
    first two attempts and serves the key on the third, and
    [max_retries = 3], [fetch_with_retry] returns the record after
    three lookups and without any sleep, whatever [delay] is:
    [get_book_by_isbn] turns the two errors into [None], so the handler
    that sleeps is not entered. *)
Theorem fetch_with_retry_no_backoff_on_errors (delay : Q) :
  fetch_with_retry not_2xx third_time_lucky k1 3 delay
    = (dune_record, [Fetch 0; Fetch 1; Fetch 2])
  /\ sleeps (snd (fetch_with_retry not_2xx third_time_lucky k1 3 delay)) = [].
Proof. split; reflexivity. Qed.

(** The handler does back off when it is entered: if every attempt
    leaves the block around the lookup with an exception, the sleeps
    are [delay], [delay * 2], ... , one after each attempt but the
    last. *)
Lemma fetch_with_retry_backoff
    (is_error_status : Z -> bool) (world : nat -> client) (isbn : string)
    (max_retries : Z) (delay : Q) :
  (forall n, exists e, client_close (world n) = Some e) ->
  sleeps (snd (fetch_with_retry is_error_status world isbn max_retries delay))
  = backoff delay (Z.to_nat max_retries - 1).
Proof.
  intros H. unfold fetch_with_retry, range.
  apply retry_loop_backoff; [|reflexivity].
  intros n. destruct (H n) as [e He]. unfold attempt_once. rewrite He.
  destruct (client_open (world n)) as [e'|]; [now exists e'|now exists e].
Qed.

(** ** The record parser *)

(** Reading a names field: the test [if v] and, when it holds, the
    name of the first element. *)
Lemma names_readable_returns (field : option value) (empty dflt : value) :
  truthy empty = false ->
  names_readable field = true ->
  (if truthy (match field with Some v => v | None => empty end)
   then first_name (match field with Some v => v | None => empty end) dflt
   else Ret dflt)
  = Ret (name_or field dflt).
Proof.
  intros Hempty. destruct field as [v|]; simpl; [|now rewrite Hempty].
  destruct v as [|b|n|f|s|[|x xs]|[|kv items]]; simpl;
    try discriminate; try reflexivity.
  - destruct b; [discriminate|reflexivity].
  - destruct (n =? 0)%Z; [reflexivity|discriminate].
  - destruct (PrimFloat.eqb f PrimFloat.zero); [reflexivity|discriminate].
  - destruct (String.eqb s ""); [reflexivity|discriminate].
  - destruct x; simpl; try discriminate. reflexivity.
Qed.

Lemma names_unreadable_raises (field : option value) (empty dflt : value) :
  names_readable field = false ->
  exists e,
    (if truthy (match field with Some v => v | None => empty end)
     then first_name (match field with Some v => v | None => empty end) dflt
     else Ret dflt)
    = Raise e.
Proof.
  destruct field as [v|]; simpl; [|discriminate].
  destruct v as [|b|n|f|s|[|x xs]|[|kv items]]; simpl; try discriminate.
  - destruct b; [now exists TypeError|discriminate].
  - destruct (n =? 0)%Z; [discriminate|now exists TypeError].
  - destruct (PrimFloat.eqb f PrimFloat.zero); [discriminate|now exists TypeError].
  - destruct s as [|c s]; simpl; [discriminate|now exists AttributeError].
  - destruct x; simpl; try discriminate; now exists AttributeError.
  - now exists KeyError.
Qed.

(** C6, as the code has it.  For a fragment that is a mapping, the
    parser builds a record exactly when each of the authors and
    publishers fields is missing, false (null, empty) or a list that
    starts with a mapping, and raises otherwise.  In the record a
    missing title, date or page count is replaced by its default and
    a present one is kept; the author is the name of the first author
    and, when the authors field is missing or an empty list, the
    unknown-author default; the same holds for the publisher. *)
Theorem _parse_book_data_defaults (d : dict) (isbn : string) :
  (names_readable (dict_get d "authors") = true ->
   names_readable (dict_get d "publishers") = true ->
   _parse_book_data (VDict d) isbn
   = Ret (VDict [("title", dict_get_default d "title" unknown_title);
                 ("author", name_or (dict_get d "authors") unknown_author);
                 ("isbn", VStr isbn);
                 ("publisher", name_or (dict_get d "publishers") unknown_publisher);
                 ("publish_date", dict_get_default d "publish_date" unknown_date);
                 ("number_of_pages",
                  dict_get_default d "number_of_pages" unknown_pages);
                 ("raw_data", VDict d)]))
  /\ (names_readable (dict_get d "authors") = false
      \/ names_readable (dict_get d "publishers") = false ->
      exists e, _parse_book_data (VDict d) isbn = Raise e)
  /\ (dict_get d "title" = None ->
      dict_get_default d "title" unknown_title = unknown_title)
  /\ (missing_or_empty d "authors" ->
      names_readable (dict_get d "authors") = true
      /\ name_or (dict_get d "authors") unknown_author = unknown_author)
  /\ (missing_or_empty d "publishers" ->
      names_readable (dict_get d "publishers") = true
      /\ name_or (dict_get d "publishers") unknown_publisher = unknown_publisher).
Proof.
  assert (Hauthor : forall dflt,
            (if truthy (dict_get_default d "authors" (VList []))
             then first_name (dict_get_default d "authors" (VList [])) dflt
             else Ret dflt)
            = (if truthy (match dict_get d "authors" with
                          | Some v => v | None => VList [] end)
               then first_name (match dict_get d "authors" with
                                | Some v => v | None => VList [] end) dflt
               else Ret dflt)) by reflexivity.
  assert (Hpublisher :
            (if truthy (dict_get_default d "publishers" VNone)
             then first_name (dict_get_default d "publishers" (VList [VDict []]))
                    unknown_publisher
             else Ret unknown_publisher)
            = (if truthy (match dict_get d "publishers" with
                          | Some v => v | None => VNone end)
               then first_name (match dict_get d "publishers" with
                                | Some v => v | None => VNone end)
                      unknown_publisher
               else Ret unknown_publisher)).
  { unfold dict_get_default. now destruct (dict_get d "publishers"). }
  unfold _parse_book_data, author_of. cbn [py_get bind].
  rewrite Hauthor, Hpublisher.
  split; [|split; [|split; [|split]]].
  - intros Ha Hp.
    rewrite (names_readable_returns _ (VList []) unknown_author eq_refl Ha).
    cbn [bind].
    rewrite (names_readable_returns _ VNone unknown_publisher eq_refl Hp).
    reflexivity.
  - intros [Ha|Hp].
    + destruct (names_unreadable_raises _ (VList []) unknown_author Ha) as [e ->].
      now exists e.
    + destruct (names_readable (dict_get d "authors")) eqn:Ha.
      * rewrite (names_readable_returns _ (VList []) unknown_author eq_refl Ha).
        cbn [bind].
        destruct (names_unreadable_raises _ VNone unknown_publisher Hp) as [e ->].
        now exists e.
      * destruct (names_unreadable_raises _ (VList []) unknown_author Ha)
          as [e ->].
        now exists e.
  - unfold dict_get_default. now intros ->.
  - now intros [-> | ->].
  - now intros [-> | ->].
Qed.

Lemma _parse_book_data_defaults_witness :
  _parse_book_data (VDict [("title", VStr "Dune")]) "9780441172719"
  = Ret (VDict [("title", VStr "Dune");
                ("author", unknown_author);
                ("isbn", VStr "9780441172719");
                ("publisher", unknown_publisher);
                ("publish_date", unknown_date);
                ("number_of_pages", unknown_pages);
                ("raw_data", VDict [("title", VStr "Dune")])]).
Proof.
  apply (_parse_book_data_defaults [("title", VStr "Dune")] "9780441172719");
    reflexivity.
Defined.

(** C6 fails as stated: in the mapping below the authors field is
    missing, and the parser raises instead of building a record with
    the unknown-author default, because the publishers are given as
    names and not as mappings. *)
Lemma _parse_book_data_missing_authors_raises :
  dict_get [("title", VStr "Dune"); ("publishers", VList [VStr "Ace Books"])]
    "authors" = None
  /\ _parse_book_data
       (VDict [("title", VStr "Dune"); ("publishers", VList [VStr "Ace Books"])])
       "9780441172719"
     = Raise AttributeError.
Proof. split; reflexivity. Qed.

(** Whatever the other fields are, a record that is returned has the
    title of the fragment or the unknown-title default. *)
Lemma _parse_book_data_title (d : dict) (isbn : string) (r : value) :
  _parse_book_data (VDict d) isbn = Ret r ->
  exists rest, r = VDict (("title", dict_get_default d "title" unknown_title) :: rest).
Proof.
  unfold _parse_book_data. cbn [py_get bind].
  destruct (author_of _) as [a|e]; cbn [bind]; [|discriminate].
  destruct (if truthy _ then _ else _) as [pb|e]; cbn [bind]; [|discriminate].
  intros [= <-]. eexists. reflexivity.
Qed.

(** A field that is present and ill-formed does make the parser raise:
    a list of author names instead of a list of mappings. *)
Example _parse_book_data_raises :
  _parse_book_data (VDict [("authors", VList [VStr "Frank Herbert"])]) k1
  = Raise AttributeError.
Proof. reflexivity. Qed.

(** ** The synchronous single fetcher *)

(** C5, as the code has it.  [fetch_book_info_sync] tests the status
    against 200: any other status, 2xx or not, gives [None]; status
    200 with a body that maps the key to a fragment whose authors field
    is well formed gives the record built from the fragment. *)
Theorem fetch_book_info_sync_by_status
    (httpx_has : string -> bool) (get : transport) (isbn : string)
    (resp : response) :
  get (books_url default_base_url isbn) = Ret resp ->
  (status_code resp <> 200%Z ->
   fetch_book_info_sync httpx_has get isbn = Ret VNone)
  /\ (status_code resp = 200%Z ->
      forall (data fragment : dict) (author : value),
        json resp = Ret (VDict data) ->
        dict_get data (isbn_key isbn) = Some (VDict fragment) ->
        author_of (dict_get_default fragment "authors" (VList [])) = Ret author ->
        fetch_book_info_sync httpx_has get isbn
        = Ret (book_info (dict_get_default fragment "title" unknown_title) author isbn
                 (VDict fragment))).
Proof.
  intros Hget. unfold fetch_book_info_sync, lookup_200. rewrite Hget.
  cbn [bind]. split.
  - intros Hs. apply Z.eqb_neq in Hs. now rewrite Hs.
  - intros Hs data fragment author Hj Hk Ha. rewrite Hs, Hj.
    cbn [bind Z.eqb Pos.eqb py_in py_getitem]. rewrite Hk.
    cbn [bind py_get]. unfold dict_get_default in *.
    rewrite Ha. reflexivity.
Qed.

Lemma fetch_book_info_sync_by_status_witness :
  fetch_book_info_sync httpx_module (fun _ => Ret (mkResponse 404 (Ret (VDict [])))) k1
    = Ret VNone
  /\ fetch_book_info_sync httpx_module (fun _ => Ret (served dune k1)) k1
     = Ret (book_info (VStr "Dune") (VStr "Frank Herbert") k1 dune).
Proof.
  split.
  - apply (fetch_book_info_sync_by_status httpx_module
             (fun _ => Ret (mkResponse 404 (Ret (VDict [])))) k1
             (mkResponse 404 (Ret (VDict []))) eq_refl).
    simpl. lia.
  - apply (proj2 (fetch_book_info_sync_by_status httpx_module
                    (fun _ => Ret (served dune k1)) k1 (served dune k1) eq_refl)
             eq_refl
             [(isbn_key k1, dune)]
             [("title", VStr "Dune");
              ("authors", VList [VDict [("name", VStr "Frank Herbert")]])]
             (VStr "Frank Herbert")); reflexivity.
Defined.

(** C5 fails as stated: a 201 response whose body has the key gives
    [None], not the record a 200 response with the same body gives;
    and a 404 response gives [None] as well, the value returned when a
    200 body lacks the key, with no status in it. *)
Lemma fetch_book_info_sync_201_is_None :
  fetch_book_info_sync httpx_module
    (fun _ => Ret (mkResponse 201 (Ret (VDict [(isbn_key k1, dune)])))) k1
    = Ret VNone
  /\ fetch_book_info_sync httpx_module
       (fun _ => Ret (mkResponse 201 (Ret (VDict [(isbn_key k1, dune)])))) k1
     <> fetch_book_info_sync httpx_module
          (fun _ => Ret (mkResponse 200 (Ret (VDict [(isbn_key k1, dune)])))) k1
  /\ fetch_book_info_sync httpx_module
       (fun _ => Ret (mkResponse 404 (Ret (VDict [])))) k1
     = fetch_book_info_sync httpx_module (fun _ => Ret absent) k1.
Proof.
  split; [reflexivity|]. split; [|reflexivity].
  vm_compute. discriminate.
Qed.

(** A timeout is caught by the first handler. *)
Lemma fetch_book_info_sync_timeout (get : transport) (isbn : string) :
  lookup_200 get isbn = Raise TimeoutException ->
  fetch_book_info_sync httpx_module get isbn = Ret VNone.
Proof.
  intros H. unfold fetch_book_info_sync. now rewrite H.
Qed.

(** Any other exception reaches the clause [except
    httpx.RequestException], whose lookup in the module fails. *)
Lemma fetch_book_info_sync_propagates (get : transport) (isbn : string) (e : exn) :
  lookup_200 get isbn = Raise e ->
  is_timeout e = false ->
  fetch_book_info_sync httpx_module get isbn = Raise AttributeError.
Proof.
  intros H Ht. unfold fetch_book_info_sync. rewrite H, Ht. reflexivity.
Qed.

(** With a module that had both names the function would return a
    value on every path. *)
Lemma fetch_book_info_sync_returns (httpx_has : string -> bool)
    (get : transport) (isbn : string) :
  httpx_has "TimeoutException" = true ->
  httpx_has "RequestException" = true ->
  exists v, fetch_book_info_sync httpx_has get isbn = Ret v.
Proof.
  intros H1 H2. unfold fetch_book_info_sync. rewrite H1, H2.
  destruct (lookup_200 get isbn) as [v|e]; [now exists v|].
  destruct (is_timeout e); now exists VNone.
Qed.

(** C7, on the code.  When the service cannot be reached, or answers
    200 with a body that is not JSON, [fetch_book_info_sync] does not
    return: the exception passes the timeout handler, and the next
    clause raises [AttributeError], which leaves the function. *)
Theorem fetch_book_info_sync_raises :
  fetch_book_info_sync httpx_module (fun _ => Raise ConnectError) k1
    = Raise AttributeError
  /\ fetch_book_info_sync httpx_module
       (fun _ => Ret (mkResponse 200 (Raise JSONDecodeError))) k1
     = Raise AttributeError.
Proof. split; reflexivity. Qed.

(** * Further properties of the code *)

(** ** Where a record comes from *)

Lemma _parse_book_data_inv (book_data : value) (isbn : string) (r : value) :
  _parse_book_data book_data isbn = Ret r ->
  exists (d : dict) (author publisher : value),
    book_data = VDict d
    /\ author_of (dict_get_default d "authors" (VList [])) = Ret author
    /\ r = book_details (dict_get_default d "title" unknown_title) author isbn
             publisher
             (dict_get_default d "publish_date" unknown_date)
             (dict_get_default d "number_of_pages" unknown_pages)
             (VDict d).
Proof.
  unfold _parse_book_data.
  destruct book_data as [| | | | | |d]; cbn [py_get bind]; try discriminate.
  destruct (author_of _) as [a|e] eqn:Ha; cbn [bind]; [|discriminate].
  destruct (if truthy _ then _ else _) as [pb|e]; cbn [bind]; [|discriminate].
  intros [= <-]. exists d, a, pb. repeat split. exact Ha.
Qed.

(** What a successful [get_book_by_isbn] went through. *)
Lemma get_book_by_isbn_inv
    (is_error_status : Z -> bool) (base_url : string) (session : transport)
    (isbn : string) :
  is_None (get_book_by_isbn is_error_status base_url session isbn) = false ->
  exists (resp : response) (data fragment : dict),
    session (books_url base_url isbn) = Ret resp
    /\ is_error_status (status_code resp) = false
    /\ json resp = Ret (VDict data)
    /\ dict_get data (isbn_key isbn) = Some (VDict fragment)
    /\ _parse_book_data (VDict fragment) isbn
       = Ret (get_book_by_isbn is_error_status base_url session isbn).
Proof.
  unfold get_book_by_isbn, raise_for_status.
  destruct (session _) as [resp|e] eqn:Hget; cbn [bind except_return_None];
    [|discriminate].
  destruct (is_error_status (status_code resp)) eqn:Hs;
    cbn [bind except_return_None]; [discriminate|].
  destruct (json resp) as [data|e] eqn:Hj; cbn [bind except_return_None];
    [|discriminate].
  destruct (py_in (isbn_key isbn) data) as [[|]|e] eqn:Hin;
    cbn [bind except_return_None]; try discriminate.
  destruct data as [| | | | | |items]; cbn [py_getitem bind except_return_None];
    try discriminate.
  destruct (dict_get items (isbn_key isbn)) as [raw|] eqn:Hk;
    cbn [bind except_return_None]; [|discriminate].
  destruct (_parse_book_data raw isbn) as [r|e] eqn:Hp;
    cbn [except_return_None]; [|discriminate].
  intros _.
  destruct (_parse_book_data_inv raw isbn r Hp) as (d & a & pb & Hraw & _ & Hr).
  subst raw. exists resp, items, d. repeat split; assumption.
Qed.

(** X1.  Whenever [_parse_book_data] returns, its argument was a
    mapping, and the record has the seven keys in their order: the
    [isbn] is the one passed in, [raw_data] is the fragment itself, and
    the title, date and page count are those of the fragment or their
    defaults. *)
Theorem _parse_book_data_record (book_data : value) (isbn : string) (r : value) :
  _parse_book_data book_data isbn = Ret r ->
  exists (d : dict) (author publisher : value),
    book_data = VDict d
    /\ author_of (dict_get_default d "authors" (VList [])) = Ret author
    /\ r = book_details (dict_get_default d "title" unknown_title) author isbn
             publisher
             (dict_get_default d "publish_date" unknown_date)
             (dict_get_default d "number_of_pages" unknown_pages)
             (VDict d).
Proof.
  intros H. exact (_parse_book_data_inv book_data isbn r H).
Qed.

Lemma _parse_book_data_record_witness :
  exists (d : dict) (author publisher : value),
    dune = VDict d
    /\ author_of (dict_get_default d "authors" (VList [])) = Ret author
    /\ dune_record
       = book_details (dict_get_default d "title" unknown_title) author k1
           publisher
           (dict_get_default d "publish_date" unknown_date)
           (dict_get_default d "number_of_pages" unknown_pages)
           (VDict d).
Proof.
  apply (_parse_book_data_record dune k1 dune_record). reflexivity.
Defined.

(** X2.  [get_book_by_isbn] returns a record only when the request was
    answered with a status that [raise_for_status] accepts and a body
    that maps the key to a mapping; the record is then the one
    [_parse_book_data] builds from that fragment, so its [isbn] is the
    key asked for and its [raw_data] the fragment served. *)
Theorem get_book_by_isbn_record_origin
    (is_error_status : Z -> bool) (base_url : string) (session : transport)
    (isbn : string) :
  is_None (get_book_by_isbn is_error_status base_url session isbn) = false ->
  exists (resp : response) (data fragment : dict),
    session (books_url base_url isbn) = Ret resp
    /\ is_error_status (status_code resp) = false
    /\ json resp = Ret (VDict data)
    /\ dict_get data (isbn_key isbn) = Some (VDict fragment)
    /\ _parse_book_data (VDict fragment) isbn
       = Ret (get_book_by_isbn is_error_status base_url session isbn)
    /\ record_field (get_book_by_isbn is_error_status base_url session isbn) "isbn"
       = Some (VStr isbn)
    /\ record_field (get_book_by_isbn is_error_status base_url session isbn)
         "raw_data"
       = Some (VDict fragment).
Proof.
  intros H.
  destruct (get_book_by_isbn_inv is_error_status base_url session isbn H)
    as (resp & data & fragment & Hget & Hs & Hj & Hk & Hp).
  exists resp, data, fragment.
  destruct (_parse_book_data_inv _ _ _ Hp) as (d & a & pb & [= <-] & _ & Hr).
  repeat split; try assumption; rewrite Hr; reflexivity.
Qed.

Lemma get_book_by_isbn_record_origin_witness :
  exists (resp : response) (data fragment : dict),
    (fun _ : string => Ret (served dune k1)) (books_url default_base_url k1)
      = Ret resp
    /\ not_2xx (status_code resp) = false
    /\ json resp = Ret (VDict data)
    /\ dict_get data (isbn_key k1) = Some (VDict fragment)
    /\ _parse_book_data (VDict fragment) k1
       = Ret (get_book_by_isbn not_2xx default_base_url
                (fun _ => Ret (served dune k1)) k1)
    /\ record_field (get_book_by_isbn not_2xx default_base_url
                       (fun _ => Ret (served dune k1)) k1) "isbn"
       = Some (VStr k1)
    /\ record_field (get_book_by_isbn not_2xx default_base_url
                       (fun _ => Ret (served dune k1)) k1) "raw_data"
       = Some (VDict fragment).
Proof.
  apply (get_book_by_isbn_record_origin not_2xx default_base_url
           (fun _ => Ret (served dune k1)) k1).
  reflexivity.
Defined.

(** X3.  [fetch_book_info_async] returns a record only when its client
    opened and closed without an exception and the request was answered
    with status 200 and a body that maps the key to a mapping; the
    record then carries the key asked for, the fragment served as
    [raw_data], and the title of the fragment or the default. *)
Theorem fetch_book_info_async_record_origin (c : client) (isbn : string) :
  is_None (fetch_book_info_async c isbn) = false ->
  client_open c = None
  /\ client_close c = None
  /\ exists (resp : response) (data fragment : dict) (author : value),
       client_get c (books_url default_base_url isbn) = Ret resp
       /\ status_code resp = 200%Z
       /\ json resp = Ret (VDict data)
       /\ dict_get data (isbn_key isbn) = Some (VDict fragment)
       /\ fetch_book_info_async c isbn
          = book_info (dict_get_default fragment "title" unknown_title) author
              isbn (VDict fragment).
Proof.
  unfold fetch_book_info_async, with_client.
  destruct (client_open c) eqn:Ho; [discriminate|].
  destruct (client_close c) eqn:Hc; [discriminate|].
  unfold lookup_200.
  destruct (client_get c _) as [resp|e] eqn:Hget; cbn [bind except_return_None];
    [|discriminate].
  destruct (status_code resp =? 200)%Z eqn:Hs; [|discriminate].
  apply Z.eqb_eq in Hs.
  destruct (json resp) as [data|e] eqn:Hj; cbn [bind except_return_None];
    [|discriminate].
  destruct (py_in (isbn_key isbn) data) as [[|]|e];
    cbn [bind except_return_None]; try discriminate.
  destruct data as [| | | | | |items]; cbn [py_getitem bind except_return_None];
    try discriminate.
  destruct (dict_get items (isbn_key isbn)) as [raw|] eqn:Hk;
    cbn [bind except_return_None]; [|discriminate].
  destruct raw as [| | | | | |fragment]; cbn [py_get bind except_return_None];
    try discriminate.
  destruct (author_of _) as [a|e]; cbn [bind except_return_None];
    [|discriminate].
  intros _. split; [reflexivity|]. split; [reflexivity|].
  exists resp, items, fragment, a. repeat split; assumption.
Qed.

Lemma fetch_book_info_async_record_origin_witness :
  client_open (plain_client (fun _ => Ret (served dune k1))) = None
  /\ client_close (plain_client (fun _ => Ret (served dune k1))) = None
  /\ exists (resp : response) (data fragment : dict) (author : value),
       client_get (plain_client (fun _ => Ret (served dune k1)))
         (books_url default_base_url k1) = Ret resp
       /\ status_code resp = 200%Z
       /\ json resp = Ret (VDict data)
       /\ dict_get data (isbn_key k1) = Some (VDict fragment)
       /\ fetch_book_info_async (plain_client (fun _ => Ret (served dune k1))) k1
          = book_info (dict_get_default fragment "title" unknown_title) author
              k1 (VDict fragment).
Proof.
  apply (fetch_book_info_async_record_origin
           (plain_client (fun _ => Ret (served dune k1))) k1).
  reflexivity.
Defined.

(** ** The two single fetchers and the wrapper side by side *)

(** X4.  Whenever [fetch_book_info_sync] returns a value,
    [fetch_book_info_async] over a client that opens and closes without
    fault returns the same value for the same transport. *)
Theorem fetch_book_info_sync_agrees_with_async
    (httpx_has : string -> bool) (get : transport) (isbn : string) (v : value) :
  fetch_book_info_sync httpx_has get isbn = Ret v ->
  fetch_book_info_async (plain_client get) isbn = v.
Proof.
  unfold fetch_book_info_sync, fetch_book_info_async, with_client, plain_client.
  cbn [client_open client_close client_get].
  destruct (lookup_200 get isbn) as [v0|e]; cbn [except_return_None].
  - now intros [= <-].
  - destruct (httpx_has "TimeoutException"); [|discriminate].
    destruct (is_timeout e); [now intros [= <-]|].
    destruct (httpx_has "RequestException"); [now intros [= <-]|discriminate].
Qed.

Lemma fetch_book_info_sync_agrees_with_async_witness :
  fetch_book_info_async (plain_client (fun _ => Ret (served dune k1))) k1
  = book_info (VStr "Dune") (VStr "Frank Herbert") k1 dune.
Proof.
  apply (fetch_book_info_sync_agrees_with_async httpx_module
           (fun _ => Ret (served dune k1)) k1).
  reflexivity.
Defined.

(** X5.  With the httpx module as it is, a request that raises is
    turned into [None] by [fetch_book_info_sync] when the exception is
    a timeout, and ends the call with [AttributeError] when it is any
    other exception. *)
Theorem fetch_book_info_sync_transport_failure
    (get : transport) (isbn : string) (e : exn) :
  get (books_url default_base_url isbn) = Raise e ->
  fetch_book_info_sync httpx_module get isbn
  = if is_timeout e then Ret VNone else Raise AttributeError.
Proof.
  intros H. unfold fetch_book_info_sync, lookup_200. rewrite H.
  cbn [bind]. change (httpx_module "TimeoutException") with true.
  change (httpx_module "RequestException") with false.
  destruct (is_timeout e); reflexivity.
Qed.

Lemma fetch_book_info_sync_transport_failure_witness :
  fetch_book_info_sync httpx_module times_out k1 = Ret VNone.
Proof.
  apply (fetch_book_info_sync_transport_failure times_out k1 TimeoutException).
  reflexivity.
Defined.

(** X6.  Whenever [get_book_by_isbn] finds a book in an answer with
    status 200, [fetch_book_info_async] finds it too over the same
    transport, with the same title, author and raw data. *)
Theorem get_book_by_isbn_agrees_with_fetcher
    (is_error_status : Z -> bool) (get : transport) (isbn : string)
    (resp : response) :
  get (books_url default_base_url isbn) = Ret resp ->
  status_code resp = 200%Z ->
  is_None (get_book_by_isbn is_error_status default_base_url get isbn) = false ->
  exists title author raw : value,
    record_field (get_book_by_isbn is_error_status default_base_url get isbn)
      "title" = Some title
    /\ record_field (get_book_by_isbn is_error_status default_base_url get isbn)
         "author" = Some author
    /\ record_field (get_book_by_isbn is_error_status default_base_url get isbn)
         "raw_data" = Some raw
    /\ fetch_book_info_async (plain_client get) isbn
       = book_info title author isbn raw.
Proof.
  intros Hget H200 Hfound.
  destruct (get_book_by_isbn_inv _ _ _ _ Hfound)
    as (resp' & data & fragment & Hget' & _ & Hj & Hk & Hp).
  rewrite Hget in Hget'. injection Hget' as <-.
  destruct (_parse_book_data_inv _ _ _ Hp) as (d & a & pb & [= <-] & Ha & Hr).
  rewrite Hr.
  exists (dict_get_default fragment "title" unknown_title), a, (VDict fragment).
  repeat split.
  unfold fetch_book_info_async, with_client, plain_client, lookup_200.
  cbn [client_open client_close client_get]. rewrite Hget. cbn [bind].
  rewrite H200, Hj. cbn [Z.eqb Pos.eqb bind py_in py_getitem]. rewrite Hk.
  cbn [bind py_get]. rewrite Ha. reflexivity.
Qed.

Lemma get_book_by_isbn_agrees_with_fetcher_witness :
  exists title author raw : value,
    record_field (get_book_by_isbn not_2xx default_base_url
                    (fun _ => Ret (served dune k1)) k1) "title" = Some title
    /\ record_field (get_book_by_isbn not_2xx default_base_url
                       (fun _ => Ret (served dune k1)) k1) "author" = Some author
    /\ record_field (get_book_by_isbn not_2xx default_base_url
                       (fun _ => Ret (served dune k1)) k1) "raw_data" = Some raw
    /\ fetch_book_info_async (plain_client (fun _ => Ret (served dune k1))) k1
       = book_info title author k1 raw.
Proof.
  apply (get_book_by_isbn_agrees_with_fetcher not_2xx
           (fun _ => Ret (served dune k1)) k1 (served dune k1));
    reflexivity.
Defined.

(** ** The request URL *)

Lemma length_append_string (a b : string) :
  String.length (a ++ b)%string = (String.length a + String.length b)%nat.
Proof.
  induction a as [|c a IH]; simpl; [reflexivity|now rewrite IH].
Qed.

Lemma append_inv_head (s a b : string) : (s ++ a = s ++ b)%string -> a = b.
Proof.
  induction s as [|c s IH]; simpl; [trivial|].
  intros [= H]. now apply IH.
Qed.

Lemma append_inv_tail (s a b : string) : (a ++ s = b ++ s)%string -> a = b.
Proof.
  revert b.
  induction a as [|c a IH]; intros [|c' b] H; simpl in H.
  - reflexivity.
  - apply (f_equal String.length) in H. simpl in H.
    rewrite length_append_string in H. lia.
  - apply (f_equal String.length) in H. simpl in H.
    rewrite length_append_string in H. lia.
  - injection H as -> H. f_equal. now apply IH.
Qed.

(** X7.  For a given base address, two keys with the same request URL
    are the same key: distinct keys are never looked up under one
    URL. *)
Theorem books_url_injective (base_url a b : string) :
  books_url base_url a = books_url base_url b -> a = b.
Proof.
  unfold books_url. intros H.
  apply append_inv_head in H. apply append_inv_head in H.
  now apply append_inv_tail in H.
Qed.

Lemma books_url_injective_witness : k1 = k1.
Proof.
  apply (books_url_injective default_base_url k1 k1). reflexivity.
Defined.

(** ** The retry loop, whatever the network does *)

Section RetryInvariants.
Variable is_error_status : Z -> bool.
Variable world : nat -> client.
Variable isbn : string.
Variable max_retries : Z.

Local Abbreviation once := (attempt_once is_error_status world isbn).
Local Abbreviation loop := (retry_loop is_error_status world isbn max_retries).
Local Abbreviation idle := (no_result is_error_status world isbn).
Local Abbreviation wins := (attempt_succeeds is_error_status world isbn).
Local Abbreviation found :=
  (fun n => get_book_by_isbn is_error_status default_base_url
              (client_get (world n)) isbn).

Lemma attempt_once_wins (n : nat) :
  wins n = true -> once n = (Ret (found n), [Fetch n]) /\ truthy (found n) = true.
Proof.
  unfold attempt_succeeds, attempt_once.
  destruct (client_open (world n)); [discriminate|].
  destruct (client_close (world n)); [discriminate|].
  intros H. now split.
Qed.

Lemma attempt_once_idle (n : nat) : wins n = false -> idle n.
Proof.
  unfold attempt_succeeds, no_result, attempt_once.
  destruct (client_open (world n)); [intros _; exact I|].
  destruct (client_close (world n)); [intros _; exact I|].
  simpl. trivial.
Qed.

Lemma attempt_once_fetches (n : nat) :
  fetches (snd (once n)) = [] \/ fetches (snd (once n)) = [n].
Proof.
  unfold attempt_once.
  destruct (client_open (world n)); [now left|].
  destruct (client_close (world n)); now right.
Qed.

(** The value returned does not depend on the delay. *)
Lemma retry_loop_value (attempts : list nat) (d d' : Q) :
  fst (loop attempts d) = fst (loop attempts d').
Proof.
  revert d d'.
  induction attempts as [|a rest IH]; intros d d'; [reflexivity|].
  cbn [retry_loop].
  destruct (once a) as [[v|e] evs].
  - destruct (truthy v); [reflexivity|].
    specialize (IH d d').
    destruct (loop rest d), (loop rest d'). exact IH.
  - destruct (Z.of_nat a <? max_retries - 1)%Z.
    + specialize (IH (d * 2)%Q (d' * 2)%Q).
      destruct (loop rest (d * 2)%Q), (loop rest (d' * 2)%Q). exact IH.
    + specialize (IH d d').
      destruct (loop rest d), (loop rest d'). exact IH.
Qed.

Lemma retry_loop_skip (a : nat) (rest : list nat) (d : Q) :
  idle a -> fst (loop (a :: rest) d) = fst (loop rest d).
Proof.
  unfold no_result. cbn [retry_loop].
  destruct (once a) as [[v|e] evs]; simpl.
  - intros ->. destruct (loop rest d). reflexivity.
  - intros _. destruct (Z.of_nat a <? max_retries - 1)%Z.
    + rewrite (retry_loop_value rest d (d * 2)%Q).
      destruct (loop rest (d * 2)%Q). reflexivity.
    + destruct (loop rest d). reflexivity.
Qed.

Lemma retry_loop_skip_fetches (a : nat) (rest : list nat) (d : Q) :
  idle a ->
  exists d', fetches (snd (loop (a :: rest) d))
             = fetches (snd (once a)) ++ fetches (snd (loop rest d')).
Proof.
  unfold no_result. cbn [retry_loop].
  destruct (once a) as [[v|e] evs]; simpl.
  - intros ->. exists d. destruct (loop rest d). simpl.
    unfold fetches. now rewrite flat_map_app.
  - intros _. destruct (Z.of_nat a <? max_retries - 1)%Z.
    + exists (d * 2)%Q. destruct (loop rest (d * 2)%Q). simpl.
      unfold fetches. now rewrite flat_map_app.
    + exists d. destruct (loop rest d). simpl.
      unfold fetches. now rewrite flat_map_app.
Qed.

Lemma retry_loop_win (a : nat) (rest : list nat) (d : Q) :
  wins a = true -> loop (a :: rest) d = (found a, [Fetch a]).
Proof.
  intros H. destruct (attempt_once_wins a H) as [Ho Ht].
  cbn [retry_loop]. rewrite Ho, Ht. reflexivity.
Qed.


Lemma retry_loop_origin (attempts : list nat) (d : Q) :
  fst (loop attempts d) = VNone
  \/ exists n, In n attempts /\ wins n = true /\ fst (loop attempts d) = found n.
Proof.
  revert d. induction attempts as [|a rest IH]; intros d; [now left|].
  destruct (wins a) eqn:Hw.
  - right. exists a. rewrite (retry_loop_win a rest d Hw).
    split; [now left|]. now split.
  - rewrite (retry_loop_skip a rest d (attempt_once_idle a Hw)).
    destruct (IH d) as [H|(n & Hn & Hwn & H)]; [now left|].
    right. exists n. split; [now right|]. now split.
Qed.


Lemma retry_loop_fetches_sorted (k a : nat) (d : Q) :
  Forall (fun n => (a <= n < a + k)%nat) (fetches (snd (loop (seq a k) d)))
  /\ StronglySorted lt (fetches (snd (loop (seq a k) d)))
  /\ (length (fetches (snd (loop (seq a k) d))) <= k)%nat.
Proof.
  revert a d. induction k as [|k IH]; intros a d.
  - simpl. repeat split; constructor.
  - cbn [seq]. destruct (wins a) eqn:Hw.
    + rewrite (retry_loop_win a _ d Hw). simpl. repeat split.
      * constructor; [lia|constructor].
      * constructor; constructor.
      * lia.
    + destruct (retry_loop_skip_fetches a (seq (S a) k) d
                  (attempt_once_idle a Hw)) as [d' ->].
      destruct (IH (S a) d') as (Hall & Hsorted & Hlen).
      assert (Hall' : Forall (fun n => (a <= n < a + S k)%nat)
                        (fetches (snd (loop (seq (S a) k) d')))).
      { eapply Forall_impl; [|exact Hall]. simpl. intros n Hn. lia. }
      destruct (attempt_once_fetches a) as [->| ->]; simpl.
      * repeat split; [exact Hall'|exact Hsorted|lia].
      * repeat split.
        -- constructor; [lia|exact Hall'].
        -- constructor; [exact Hsorted|].
           eapply Forall_impl; [|exact Hall]. simpl. intros n Hn. lia.
        -- lia.
Qed.

Lemma retry_loop_sleeps_backoff (k a : nat) (d : Q) :
  (a + k = Z.to_nat max_retries)%nat ->
  exists m, (m <= k - 1)%nat /\ sleeps (snd (loop (seq a k) d)) = backoff d m.
Proof.
  revert a d. induction k as [|k IH]; intros a d Hak.
  - exists 0%nat. split; [lia|reflexivity].
  - cbn [seq retry_loop].
    pose proof (attempt_once_sleeps is_error_status world isbn a) as Hs.
    destruct (once a) as [[v|e] evs]; simpl in Hs.
    + destruct (truthy v).
      * exists 0%nat. split; [lia|]. simpl. exact Hs.
      * destruct (IH (S a) d ltac:(lia)) as (m & Hm & Hsl).
        destruct (loop (seq (S a) k) d) as [v' evs']. simpl in Hsl |- *.
        exists m. split; [lia|].
        unfold sleeps in *. now rewrite flat_map_app, Hs, Hsl.
    + destruct (Z.of_nat a <? max_retries - 1)%Z eqn:Hlt.
      * apply Z.ltb_lt in Hlt.
        destruct (IH (S a) (d * 2)%Q ltac:(lia)) as (m & Hm & Hsl).
        destruct (loop (seq (S a) k) (d * 2)%Q) as [v' evs']. simpl in Hsl |- *.
        exists (S m). split; [lia|].
        unfold sleeps in *. rewrite flat_map_app, Hs. simpl. now rewrite Hsl.
      * destruct (IH (S a) d ltac:(lia)) as (m & Hm & Hsl).
        destruct (loop (seq (S a) k) d) as [v' evs']. simpl in Hsl |- *.
        exists m. split; [lia|].
        unfold sleeps in *. now rewrite flat_map_app, Hs, Hsl.
Qed.
End RetryInvariants.

Lemma backoff_length (d : Q) (n : nat) : length (backoff d n) = n.
Proof.
  revert d. induction n as [|n IH]; intros d; simpl; [reflexivity|now rewrite IH].
Qed.

Lemma backoff_nth (n k : nat) (d : Q) :
  (k < n)%nat ->
  (nth k (backoff d n) 0 == d * inject_Z (2 ^ Z.of_nat k))%Q.
Proof.
  revert k d. induction n as [|n IH]; intros k d Hk; [lia|].
  destruct k as [|k]; simpl nth.
  - change (inject_Z (2 ^ Z.of_nat 0)) with 1%Q. ring.
  - rewrite (IH k (d * 2)%Q ltac:(lia)).
    rewrite Nat2Z.inj_succ, Z.pow_succ_r by lia.
    rewrite inject_Z_mult. change (inject_Z 2) with 2%Q. ring.
Qed.

Lemma truthy_not_None (v : value) : truthy v = true -> is_None v = false.
Proof. destruct v; simpl; [discriminate|reflexivity..]. Qed.




(** X10.  Whatever the network does, [fetch_with_retry] makes at most
    [max_retries] lookups, each for an attempt number below
    [max_retries], in increasing order and none twice. *)
Theorem fetch_with_retry_lookup_bound
    (is_error_status : Z -> bool) (world : nat -> client) (isbn : string)
    (max_retries : Z) (delay : Q) :
  (length (fetches (snd (fetch_with_retry is_error_status world isbn max_retries
                           delay)))
   <= Z.to_nat max_retries)%nat
  /\ Forall (fun n => (n < Z.to_nat max_retries)%nat)
       (fetches (snd (fetch_with_retry is_error_status world isbn max_retries delay)))
  /\ StronglySorted lt
       (fetches (snd (fetch_with_retry is_error_status world isbn max_retries delay))).
Proof.
  unfold fetch_with_retry, range.
  destruct (retry_loop_fetches_sorted is_error_status world isbn max_retries
              (Z.to_nat max_retries) 0 delay) as (Hall & Hsorted & Hlen).
  split; [exact Hlen|]. split; [|exact Hsorted].
  eapply Forall_impl; [|exact Hall]. simpl. intros n Hn. lia.
Qed.


(** X20.  Whatever the network does, the sleep numbered [k] (from 0)
    of [fetch_with_retry] lasts [delay * 2 ^ k], as long as that
    number is within the range of a float. *)
Theorem fetch_with_retry_sleeps_double
    (is_error_status : Z -> bool) (world : nat -> client) (isbn : string)
    (max_retries : Z) (delay : Q) (k : nat) :
  (k < length (sleeps (snd (fetch_with_retry is_error_status world isbn
                              max_retries delay))))%nat ->
  in_float_range (delay * inject_Z (2 ^ Z.of_nat k)) ->
  (nth k (sleeps (snd (fetch_with_retry is_error_status world isbn
                         max_retries delay))) 0
   == delay * inject_Z (2 ^ Z.of_nat k))%Q.
Proof.
  unfold fetch_with_retry, range.
  destruct (retry_loop_sleeps_backoff is_error_status world isbn max_retries
              (Z.to_nat max_retries) 0 delay eq_refl) as (m & Hm & ->).
  rewrite backoff_length. intros Hk _. now apply backoff_nth.
Qed.

Lemma fetch_with_retry_sleeps_double_witness :
  (nth 1 (sleeps (snd (fetch_with_retry not_2xx close_fails k1 3 1))) 0
   == 1 * inject_Z (2 ^ Z.of_nat 1))%Q.
Proof.
  apply (fetch_with_retry_sleeps_double not_2xx close_fails k1 3 1 1).
  - simpl. lia.
  - unfold in_float_range. vm_compute. discriminate.
Defined.

(** X12.  With [max_retries] zero or negative, [fetch_with_retry]
    returns [None] without any lookup or sleep. *)
Theorem fetch_with_retry_nonpositive
    (is_error_status : Z -> bool) (world : nat -> client) (isbn : string)
    (max_retries : Z) (delay : Q) :
  (max_retries <= 0)%Z ->
  fetch_with_retry is_error_status world isbn max_retries delay = (VNone, []).
Proof.
  intros H. unfold fetch_with_retry, range.
  replace (Z.to_nat max_retries) with 0%nat by lia. reflexivity.
Qed.

Lemma fetch_with_retry_nonpositive_witness :
  fetch_with_retry not_2xx third_time_lucky k1 (-1) 1 = (VNone, []).
Proof.
  apply (fetch_with_retry_nonpositive not_2xx third_time_lucky k1 (-1) 1). lia.
Defined.

(** X13.  What [fetch_with_retry] returns is [None] or the record one
    of the attempts within [max_retries] got from [get_book_by_isbn],
    and the [isbn] of that record is the key asked for. *)
Theorem fetch_with_retry_result_origin
    (is_error_status : Z -> bool) (world : nat -> client) (isbn : string)
    (max_retries : Z) (delay : Q) :
  fst (fetch_with_retry is_error_status world isbn max_retries delay) = VNone
  \/ (record_field (fst (fetch_with_retry is_error_status world isbn max_retries
                          delay)) "isbn" = Some (VStr isbn)
      /\ exists n, (n < Z.to_nat max_retries)%nat
                   /\ fst (fetch_with_retry is_error_status world isbn max_retries
                             delay)
                      = get_book_by_isbn is_error_status default_base_url
                          (client_get (world n)) isbn).
Proof.
  unfold fetch_with_retry, range.
  destruct (retry_loop_origin is_error_status world isbn max_retries
              (seq 0 (Z.to_nat max_retries)) delay) as [H|(n & Hn & Hw & H)];
    [now left|right].
  split.
  - rewrite H.
    destruct (attempt_once_wins _ _ _ _ Hw) as [_ Ht].
    apply truthy_not_None in Ht.
    destruct (get_book_by_isbn_inv _ _ _ _ Ht)
      as (resp & data & fragment & _ & _ & _ & _ & Hp).
    destruct (_parse_book_data_inv _ _ _ Hp) as (d & a & pb & _ & _ & ->).
    reflexivity.
  - exists n. split; [|exact H]. apply in_seq in Hn. lia.
Qed.



(** ** The batch function, further *)

Lemma collect_any_flat_map (results : list gathered) (books : list entry) :
  collect_any results books = books ++ flat_map kept_any results.
Proof.
  revert books.
  induction results as [|g rest IH]; intros books; simpl.
  - now rewrite app_nil_r.
  - destruct g as [v|e|]; simpl.
    + destruct (truthy v); simpl; rewrite IH;
        [now rewrite <- app_assoc|reflexivity].
    + apply IH.
    + rewrite IH. now rewrite <- app_assoc.
Qed.

(** On results that are values or instances of [Exception] the wider
    loop is the narrower one. *)
Lemma gather_books_any_agrees
    (coro : string -> result value) (isbns : list string) :
  gather_books_any (fun k => as_gathered (coro k)) isbns
  = map Entry (gather_books coro isbns).
Proof.
  unfold gather_books_any. rewrite collect_any_flat_map, gather_books_flat_map.
  simpl. induction isbns as [|k rest IH]; [reflexivity|].
  cbn [map flat_map]. rewrite map_app, IH. f_equal.
  unfold kept. destruct (coro k) as [v|e]; simpl; [|reflexivity].
  now destruct (truthy v).
Qed.

(** A cancelled task leaves its [CancelledError] in the list. *)
Example gather_books_any_cancelled :
  gather_books_any k2_cancelled [k1; k2; k3]
  = [Entry (book_info (VStr "Dune") (VStr "Frank Herbert") k1 dune);
     CancelledErrorEntry;
     Entry (book_info (VStr "Dune") (VStr "Frank Herbert") k3 dune)].
Proof. reflexivity. Qed.

(** X15.  Whatever [gather] hands back, every entry of the list the
    loop builds is a true value returned by the coroutine of one of the
    keys, or the [CancelledError] of the cancelled task of one of the
    keys: never [None], never an empty value, never an instance of
    [Exception]. *)
Theorem gather_books_any_entries
    (coro : string -> gathered) (isbns : list string) :
  Forall (fun en =>
            match en with
            | Entry v =>
                truthy v = true /\ exists k, In k isbns /\ coro k = Returned v
            | CancelledErrorEntry =>
                exists k, In k isbns /\ coro k = CancelledErrorObject
            end)
    (gather_books_any coro isbns).
Proof.
  unfold gather_books_any. rewrite collect_any_flat_map. simpl.
  apply Forall_forall. intros en Hen.
  apply in_flat_map in Hen. destruct Hen as (g & Hg & Hin).
  apply in_map_iff in Hg. destruct Hg as (k & <- & Hk).
  unfold kept_any in Hin. destruct (coro k) as [v|e|] eqn:Hc.
  - destruct (truthy v) eqn:Ht; [|destruct Hin].
    destruct Hin as [<-|[]]. split; [exact Ht|now exists k].
  - destruct Hin.
  - destruct Hin as [<-|[]]. now exists k.
Qed.

(** X16.  A batch over two lists of keys put end to end returns the
    records of the first list followed by those of the second. *)
Theorem fetch_multiple_books_async_app
    (world : string -> client) (xs ys : list string) :
  fetch_multiple_books_async world (xs ++ ys)
  = fetch_multiple_books_async world xs ++ fetch_multiple_books_async world ys.
Proof.
  unfold fetch_multiple_books_async. apply gather_books_app.
Qed.

(** X17.  When the fetch of every key of the batch produces a record,
    the batch returns exactly one record per key, in the order of the
    keys. *)
Theorem fetch_multiple_books_async_complete
    (world : string -> client) (isbns : list string) :
  (forall k, In k isbns -> is_None (fetch_book_info_async (world k) k) = false) ->
  map record_isbn (fetch_multiple_books_async world isbns)
    = map (fun k => Some (VStr k)) isbns
  /\ length (fetch_multiple_books_async world isbns) = length isbns.
Proof.
  unfold fetch_multiple_books_async. rewrite gather_books_flat_map.
  induction isbns as [|k rest IH]; intros H; [now split|].
  cbn [flat_map map length].
  assert (Hk : is_None (fetch_book_info_async (world k) k) = false)
    by (apply H; now left).
  destruct IH as [IHm IHl]; [intros k' Hk'; apply H; now right|].
  unfold kept at 1 3. rewrite fetch_book_info_async_truthy, Hk.
  cbn [negb app map length]. rewrite IHm, IHl.
  destruct (fetch_book_info_async_shape (world k) k) as [H0|(t & a & raw & ->)].
  - rewrite H0 in Hk. discriminate.
  - now split.
Qed.

Lemma fetch_multiple_books_async_complete_witness :
  map record_isbn (fetch_multiple_books_async all_served [k1; k2; k3])
    = map (fun k => Some (VStr k)) [k1; k2; k3]
  /\ length (fetch_multiple_books_async all_served [k1; k2; k3])
     = length [k1; k2; k3].
Proof.
  apply (fetch_multiple_books_async_complete all_served [k1; k2; k3]).
  intros k [<-|[<-|[<-|[]]]]; reflexivity.
Defined.

(** ** The retry loop under other settings *)

Section RetrySettings.
Variable is_error_status : Z -> bool.
Variable world : nat -> client.
Variable isbn : string.

Local Abbreviation once := (attempt_once is_error_status world isbn).
Local Abbreviation loop := (retry_loop is_error_status world isbn).

(** Neither the bound nor the delay enters the value returned for a
    given list of attempts, nor the lookups made. *)
Lemma retry_loop_settings (attempts : list nat) (m m' : Z) (d d' : Q) :
  fst (loop m attempts d) = fst (loop m' attempts d')
  /\ fetches (snd (loop m attempts d)) = fetches (snd (loop m' attempts d')).
Proof.
  revert d d'.
  induction attempts as [|a rest IH]; intros d d'; [now split|].
  cbn [retry_loop].
  destruct (once a) as [[v|e] evs].
  - destruct (truthy v); [now split|].
    destruct (IH d d') as [IHv IHf].
    destruct (loop m rest d), (loop m' rest d'). simpl in *.
    split; [exact IHv|]. unfold fetches in *. now rewrite !flat_map_app, IHf.
  - destruct (Z.of_nat a <? m - 1)%Z, (Z.of_nat a <? m' - 1)%Z.
    + destruct (IH (d * 2)%Q (d' * 2)%Q) as [IHv IHf].
      destruct (loop m rest (d * 2)%Q), (loop m' rest (d' * 2)%Q). simpl in *.
      split; [exact IHv|]. unfold fetches in *.
      rewrite !flat_map_app. simpl. now rewrite IHf.
    + destruct (IH (d * 2)%Q d') as [IHv IHf].
      destruct (loop m rest (d * 2)%Q), (loop m' rest d'). simpl in *.
      split; [exact IHv|]. unfold fetches in *.
      rewrite !flat_map_app. simpl. now rewrite IHf.
    + destruct (IH d (d' * 2)%Q) as [IHv IHf].
      destruct (loop m rest d), (loop m' rest (d' * 2)%Q). simpl in *.
      split; [exact IHv|]. unfold fetches in *.
      rewrite !flat_map_app. simpl. now rewrite IHf.
    + destruct (IH d d') as [IHv IHf].
      destruct (loop m rest d), (loop m' rest d'). simpl in *.
      split; [exact IHv|]. unfold fetches in *. now rewrite !flat_map_app, IHf.
Qed.

(** Attempts after a true result are never reached. *)
Lemma retry_loop_app_value (m : Z) (l1 l2 : list nat) (d : Q) :
  fst (loop m (l1 ++ l2) d)
  = if truthy (fst (loop m l1 d)) then fst (loop m l1 d) else fst (loop m l2 d).
Proof.
  induction l1 as [|a rest IH]; [reflexivity|].
  cbn [app].
  destruct (attempt_succeeds is_error_status world isbn a) eqn:Hw.
  - rewrite !(retry_loop_win _ _ _ _ a _ d Hw). simpl.
    destruct (attempt_once_wins _ _ _ a Hw) as [_ Ht]. now rewrite Ht.
  - pose proof (attempt_once_idle _ _ _ a Hw) as Hidle.
    rewrite !(retry_loop_skip _ _ _ _ a _ d Hidle). exact IH.
Qed.
End RetrySettings.

(** X18.  Raising [max_retries] never loses a result: a record found
    within [max_retries] attempts is the record returned under any
    larger bound. *)
Theorem fetch_with_retry_monotone
    (is_error_status : Z -> bool) (world : nat -> client) (isbn : string)
    (max_retries more_retries : Z) (delay : Q) :
  (max_retries <= more_retries)%Z ->
  truthy (fst (fetch_with_retry is_error_status world isbn max_retries delay))
    = true ->
  fst (fetch_with_retry is_error_status world isbn more_retries delay)
  = fst (fetch_with_retry is_error_status world isbn max_retries delay).
Proof.
  unfold fetch_with_retry, range. intros Hle Ht.
  replace (Z.to_nat more_retries)
    with (Z.to_nat max_retries + (Z.to_nat more_retries - Z.to_nat max_retries))%nat
    by lia.
  rewrite seq_app, retry_loop_app_value.
  destruct (retry_loop_settings is_error_status world isbn
              (seq 0 (Z.to_nat max_retries)) more_retries max_retries delay delay)
    as [-> _].
  now rewrite Ht.
Qed.

Lemma fetch_with_retry_monotone_witness :
  fst (fetch_with_retry not_2xx third_time_lucky k1 5 1)
  = fst (fetch_with_retry not_2xx third_time_lucky k1 3 1).
Proof.
  apply (fetch_with_retry_monotone not_2xx third_time_lucky k1 3 5 1).
  - lia.
  - reflexivity.
Defined.

